(** * rfsoc_nrssb: the overlay constructor

    A shallow embedding of [src/rfsoc_nrssb/overlay.py].  The module holds
    one class, [Overlay], whose constructor loads a bitstream through the
    constructor of [pynq.Overlay], reads the board name from the process
    environment, binds four data-converter objects of the RF driver to
    attributes of the new object, and calls two configuration methods.

    The constructor is embedded as a computation in a state-and-exception
    monad.  The state holds the calls made into the vendor stack, in the
    order they were made, and the four attributes the constructor assigns.
    What the vendor stack answers is a parameter of the development. *)

From Stdlib Require Import PrimFloat Ascii String.
From stdpp Require Import base strings list gmap.

Local Open Scope string_scope.

(** ** Paths: the two functions of [os.path] the constructor uses

    PYNQ boards run Linux, so [os.path] is [posixpath]. *)

Module posixpath.

Definition sep : ascii := "/"%char.

Definition is_sep (c : ascii) : bool := Ascii.eqb c sep.

(** [p.startswith('/')] *)
Definition startswith_sep (p : string) : bool :=
  match p with
  | String c _ => is_sep c
  | EmptyString => false
  end.

(** [p.endswith('/')] *)
Fixpoint endswith_sep (p : string) : bool :=
  match p with
  | EmptyString => false
  | String c EmptyString => is_sep c
  | String _ p' => endswith_sep p'
  end.

(** [p[:p.rfind('/') + 1]]: [p] up to its last separator, the separator
    included; empty when [p] has none. *)
Fixpoint upto_last_sep (p : string) : string :=
  match p with
  | EmptyString => EmptyString
  | String c p' =>
      let h := upto_last_sep p' in
      if is_sep c then String c h
      else match h with
           | EmptyString => EmptyString
           | _ => String c h
           end
  end.

(** [head == '/' * len(head)] *)
Fixpoint all_sep (p : string) : bool :=
  match p with
  | EmptyString => true
  | String c p' => is_sep c && all_sep p'
  end.

(** [head.rstrip('/')] *)
Fixpoint rstrip_sep (p : string) : string :=
  match p with
  | EmptyString => EmptyString
  | String c p' =>
      match rstrip_sep p' with
      | EmptyString => if is_sep c then EmptyString else String c EmptyString
      | r => String c r
      end
  end.

(** [posixpath.dirname] *)
Definition dirname (p : string) : string :=
  let head := upto_last_sep p in
  match head with
  | EmptyString => head
  | _ => if negb (all_sep head) then rstrip_sep head else head
  end.

(** One turn of the loop of [posixpath.join]. *)
Definition join_step (path b : string) : string :=
  if startswith_sep b then b
  else match path with
       | EmptyString => path ++ b
       | _ => if endswith_sep path then path ++ b
              else path ++ String sep b
       end.

(** [posixpath.join a *p] *)
Definition join (a : string) (p : list string) : string :=
  fold_left join_step p a.

End posixpath.

(** ** Data *)

(** The exceptions a construction can end in. *)
Inductive exn : Type :=
| KeyError (key : string)          (* [os.environ[key]], [key] not set *)
| RuntimeError (msg : string)      (* raised by the constructor itself *)
| NameError (name : string)        (* a global name that is not bound *)
| AttributeError (attr : string)   (* an attribute that does not exist *)
| IndexError                       (* a list subscript out of range *)
| Foreign (what : string).         (* raised inside the vendor stack *)

(** Values passed on to [pynq.Overlay] as keyword arguments. *)
Inductive pyvalue : Type :=
| PyNone
| PyBool (b : bool)
| PyInt (z : Z)
| PyStr (s : string).

Definition kwargs : Type := list (string * pyvalue).

(** The calls the constructor makes into the vendor stack. *)
Inductive call : Type :=
| SuperInit (bitfile_name : string) (kw : kwargs)  (* [super().__init__(bitfile_name, **kwargs)]: loads the bitstream *)
| SetCustomLmclks                                  (* [clocks.set_custom_lmclks()] *)
| ConfigureAdcs (sample_freq : float)              (* [self.configure_adcs(sample_freq=fs)] *)
| ConfigureDacs.                                   (* [self.configure_dacs()] *)

(** A call that configures the data converters. *)
Definition is_configure (c : call) : bool :=
  match c with
  | ConfigureAdcs _ | ConfigureDacs => true
  | _ => false
  end.

(** An object of the RF driver is borrowed from the driver and is named by
    the place it has in the driver's collections: a tile by the collection
    and its subscript there, a block by its tile and its subscript in the
    tile's [blocks]. *)
Inductive converter : Type := DAC | ADC.

Record tile : Type := Tile { tile_kind : converter; tile_index : nat }.

Record block : Type := Block { block_tile : tile; block_index : nat }.

(** What the driver supplies: for each collection of tiles, the length of
    the [blocks] list of each tile. *)
Record RFdc : Type := {
  dac_tiles : list nat;
  adc_tiles : list nat
}.

Definition tiles (d : RFdc) (k : converter) : list nat :=
  match k with
  | DAC => dac_tiles d
  | ADC => adc_tiles d
  end.

(** The driver [xrfdc] builds four tiles of four blocks for each kind. *)
Definition xrfdc_layout : RFdc :=
  {| dac_tiles := [4; 4; 4; 4]; adc_tiles := [4; 4; 4; 4] |}.

(** The attributes the constructor assigns on the new object. *)
Record instance : Type := {
  dac_tile : option tile;
  dac_block : option block;
  adc_tile : option tile;
  adc_block : option block
}.

Definition fresh : instance :=
  {| dac_tile := None; dac_block := None; adc_tile := None; adc_block := None |}.

(** The state a construction runs in. *)
Record world : Type := {
  calls : list call;   (* calls into the vendor stack, oldest first *)
  self : instance
}.

Definition initial : world := {| calls := []; self := fresh |}.

(** What surrounds a construction: the module's file name, the process
    environment, and the answers of the vendor stack ([None]: the call
    returns; [Some what]: it raises). *)
Record environment : Type := {
  module_file : string;                              (* [__file__] *)
  environ : gmap string string;                      (* [os.environ] *)
  super_init_raises : string → kwargs → option string;
  rfdc : option RFdc;                                (* [self.rfdc] of the loaded overlay *)
  set_custom_lmclks_raises : option string;
  configure_adcs_raises : float → option string;
  configure_dacs_raises : option string
}.

(** The names bound in the module's global scope by its [import]
    statements and its [class] statement (lines 1 to 8). *)
Definition module_globals : list string := ["Overlay"; "os"; "xrfdc"; "xrfclk"].

(** ** The monad *)

Inductive result (A : Type) : Type :=
| Returned (a : A)
| Raised (e : exn).
Arguments Returned {A} a.
Arguments Raised {A} e.

Definition M (A : Type) : Type := world → result A * world.

Definition ret {A} (a : A) : M A := λ w, (Returned a, w).

Definition bind {A B} (m : M A) (k : A → M B) : M B :=
  λ w, match m w with
       | (Returned a, w') => k a w'
       | (Raised e, w') => (Raised e, w')
       end.

Definition raise {A} (e : exn) : M A := λ w, (Raised e, w).

Declare Scope py_scope.
Delimit Scope py_scope with py.
Notation "x <- m ;; k" := (bind m (λ x, k))
  (at level 100, m at next level, right associativity) : py_scope.
Notation "m ;; k" := (bind m (λ _, k))
  (at level 100, right associativity) : py_scope.
Local Open Scope py_scope.

(** Record a call, then let the vendor stack answer. *)
Definition invoke (c : call) (answer : option string) : M unit :=
  λ w, let w' := {| calls := calls w ++ [c]; self := self w |} in
       match answer with
       | None => (Returned tt, w')
       | Some what => (Raised (Foreign what), w')
       end.

Definition get_self : M instance := λ w, (Returned (self w), w).

Definition set_self (f : instance → instance) : M unit :=
  λ w, (Returned tt, {| calls := calls w; self := f (self w) |}).

(** [l[i]] for a list and a subscript that is not negative. *)
Definition getitem {A} (l : list A) (i : nat) : M A :=
  match l !! i with
  | Some a => ret a
  | None => raise IndexError
  end.

(** Evaluate a global name: it is looked up among the module's globals.
    The builtins, which come next in Python, have no [clocks], the one name
    the constructor evaluates this way, and are left out. *)
Definition load_global (name : string) : M unit :=
  if bool_decide (name ∈ module_globals) then ret tt else raise (NameError name).

Section Construction.

Variable env : environment.

(** [os.environ[key]] *)
Definition environ_getitem (key : string) : M string :=
  match environ env !! key with
  | Some v => ret v
  | None => raise (KeyError key)
  end.

(** [self.rfdc] *)
Definition self_rfdc : M RFdc :=
  match rfdc env with
  | Some d => ret d
  | None => raise (AttributeError "rfdc")
  end.

(** [self.rfdc.dac_tiles[i]] and [self.rfdc.adc_tiles[i]] *)
Definition rfdc_tile (k : converter) (i : nat) : M tile :=
  d <- self_rfdc ;;
  _ <- getitem (tiles d k) i ;;
  ret (Tile k i).

(** [t.blocks[j]] *)
Definition tile_block (t : tile) (j : nat) : M block :=
  d <- self_rfdc ;;
  n <- getitem (tiles d (tile_kind t)) (tile_index t) ;;
  if bool_decide (j < n) then ret (Block t j) else raise IndexError.

(** [self.dac_tile] and [self.adc_tile], read back *)
Definition getattr_tile (name : string) (field : instance → option tile) : M tile :=
  s <- get_self ;;
  match field s with
  | Some t => ret t
  | None => raise (AttributeError name)
  end.

(** [self.dac_tile = self.rfdc.dac_tiles[i]] *)
Definition set_dac_tile (i : nat) : M unit :=
  t <- rfdc_tile DAC i ;;
  set_self (λ s, {| dac_tile := Some t; dac_block := dac_block s;
                    adc_tile := adc_tile s; adc_block := adc_block s |}).

(** [self.dac_block = self.dac_tile.blocks[j]] *)
Definition set_dac_block (j : nat) : M unit :=
  t <- getattr_tile "dac_tile" dac_tile ;;
  b <- tile_block t j ;;
  set_self (λ s, {| dac_tile := dac_tile s; dac_block := Some b;
                    adc_tile := adc_tile s; adc_block := adc_block s |}).

(** [self.adc_tile = self.rfdc.adc_tiles[i]] *)
Definition set_adc_tile (i : nat) : M unit :=
  t <- rfdc_tile ADC i ;;
  set_self (λ s, {| dac_tile := dac_tile s; dac_block := dac_block s;
                    adc_tile := Some t; adc_block := adc_block s |}).

(** [self.adc_block = self.adc_tile.blocks[j]] *)
Definition set_adc_block (j : nat) : M unit :=
  t <- getattr_tile "adc_tile" adc_tile ;;
  b <- tile_block t j ;;
  set_self (λ s, {| dac_tile := dac_tile s; dac_block := dac_block s;
                    adc_tile := adc_tile s; adc_block := Some b |}).

(** [super().__init__(bitfile_name, **kwargs)] *)
Definition super_init (bitfile_name : string) (kw : kwargs) : M unit :=
  invoke (SuperInit bitfile_name kw) (super_init_raises env bitfile_name kw).

(** [clocks.set_custom_lmclks()] *)
Definition set_custom_lmclks : M unit :=
  load_global "clocks" ;;
  invoke SetCustomLmclks (set_custom_lmclks_raises env).

(** [self.configure_adcs(sample_freq=fs)].  The class defines no method of
    this name, nor [configure_dacs]: both are looked up through the base
    class, and what comes of the call is the vendor stack's answer. *)
Definition configure_adcs (fs : float) : M unit :=
  invoke (ConfigureAdcs fs) (configure_adcs_raises env fs).

(** [self.configure_dacs()] *)
Definition configure_dacs : M unit :=
  invoke ConfigureDacs (configure_dacs_raises env).

(** [Overlay.__init__(self, bitfile_name=None, init_rf_clks=True, **kwargs)];
    [init_rf_clks] stands for the truth value of the argument. *)
Definition Overlay_init (bitfile_name : option string) (init_rf_clks : bool)
    (kw : kwargs) : M unit :=
  let bitfile_name :=
    match bitfile_name with
    | None =>
        let this_dir := posixpath.dirname (module_file env) in
        posixpath.join this_dir ["rfsoc_nrssb"; "bitstream"; "rfsoc_nrssb.bit"]
    | Some given => given
    end in
  super_init bitfile_name kw ;;
  board <- environ_getitem "BOARD" ;;
  (if String.eqb board "RFSoC4x2" then
     set_dac_tile 2 ;; set_dac_block 0 ;; set_adc_tile 2 ;; set_adc_block 1
   else if bool_decide (board ∈ ["ZCU208"; "ZCU216"]) then
     set_dac_tile 2 ;; set_dac_block 0 ;; set_adc_tile 1 ;; set_adc_block 0
   else if String.eqb board "RFSoC2x2" then
     set_dac_tile 1 ;; set_dac_block 0 ;; set_adc_tile 2 ;; set_adc_block 0
   else if String.eqb board "ZCU111" then
     set_dac_tile 1 ;; set_dac_block 2 ;; set_adc_tile 0 ;; set_adc_block 0
   else
     raise (RuntimeError "Unknown error occurred.")) ;;
  (if init_rf_clks then set_custom_lmclks else ret tt) ;;
  let fs := if String.eqb board "ZCU216" then 1920.00%float else 3840.00%float in
  configure_adcs fs ;;
  configure_dacs.

End Construction.

(** Run a construction on a new object. *)
Definition construct (env : environment) (bitfile_name : option string)
    (init_rf_clks : bool) (kw : kwargs) : result unit * world :=
  Overlay_init env bitfile_name init_rf_clks kw initial.

(** ** The stages of the constructor *)

(** The path handed to the constructor of the base class (lines 17 to 19). *)
Definition bitfile_path (env : environment) (bitfile_name : option string) : string :=
  match bitfile_name with
  | None =>
      posixpath.join (posixpath.dirname (module_file env))
        ["rfsoc_nrssb"; "bitstream"; "rfsoc_nrssb.bit"]
  | Some given => given
  end.

(** The chain of branches on the board name (lines 28 to 49). *)
Definition select_converters (env : environment) (board : string) : M unit :=
  if String.eqb board "RFSoC4x2" then
    set_dac_tile env 2 ;; set_dac_block env 0 ;; set_adc_tile env 2 ;; set_adc_block env 1
  else if bool_decide (board ∈ ["ZCU208"; "ZCU216"]) then
    set_dac_tile env 2 ;; set_dac_block env 0 ;; set_adc_tile env 1 ;; set_adc_block env 0
  else if String.eqb board "RFSoC2x2" then
    set_dac_tile env 1 ;; set_dac_block env 0 ;; set_adc_tile env 2 ;; set_adc_block env 0
  else if String.eqb board "ZCU111" then
    set_dac_tile env 1 ;; set_dac_block env 2 ;; set_adc_tile env 0 ;; set_adc_block env 0
  else
    raise (RuntimeError "Unknown error occurred.").

(** The sample frequency chosen on lines 55 to 58. *)
Definition fs_of (board : string) : float :=
  if String.eqb board "ZCU216" then 1920.00%float else 3840.00%float.

(** Clock start-up and the two configuration calls (lines 52 to 61). *)
Definition configure (env : environment) (board : string) (init_rf_clks : bool) : M unit :=
  (if init_rf_clks then set_custom_lmclks env else ret tt) ;;
  configure_adcs env (fs_of board) ;;
  configure_dacs env.

(** ** The mapping table of the specification *)

(** The five board names the specification recognizes. *)
Definition recognized_boards : list string :=
  ["RFSoC4x2"; "ZCU208"; "ZCU216"; "RFSoC2x2"; "ZCU111"].

(** A row of the table: the tile and block subscripts of the DAC, those of
    the ADC, and the sample frequency in MHz. *)
Record entry : Type := Entry {
  entry_dac_tile : nat;
  entry_dac_block : nat;
  entry_adc_tile : nat;
  entry_adc_block : nat;
  entry_sample_freq : float
}.

(** The table as the specification prints it, one row for each board. *)
Definition mapping_table : gmap string entry :=
  list_to_map
    [ ("RFSoC4x2", Entry 2 0 2 1 3840.00%float);
      ("ZCU208",   Entry 2 0 1 0 3840.00%float);
      ("ZCU216",   Entry 2 0 1 0 1920.00%float);
      ("RFSoC2x2", Entry 1 0 2 0 3840.00%float);
      ("ZCU111",   Entry 1 2 0 0 3840.00%float) ].

(** The four attributes once all of them are bound at given subscripts. *)
Definition bound (dt db at_ ab : nat) : instance :=
  {| dac_tile := Some (Tile DAC dt);
     dac_block := Some (Block (Tile DAC dt) db);
     adc_tile := Some (Tile ADC at_);
     adc_block := Some (Block (Tile ADC at_) ab) |}.

Definition bound_at (row : entry) : instance :=
  bound (entry_dac_tile row) (entry_dac_block row)
        (entry_adc_tile row) (entry_adc_block row).

(** The four assignments of a branch, at the subscripts of a row. *)
Definition select (env : environment) (row : entry) : M unit :=
  set_dac_tile env (entry_dac_tile row) ;;
  set_dac_block env (entry_dac_block row) ;;
  set_adc_tile env (entry_adc_tile row) ;;
  set_adc_block env (entry_adc_block row).

(** The driver has tile [i] of kind [k], and that tile has block [j]. *)
Definition has_block (d : RFdc) (k : converter) (i j : nat) : Prop :=
  match tiles d k !! i with
  | Some n => j < n
  | None => False
  end.

(** The driver has the DAC block and the ADC block of a row. *)
Definition supplies (d : RFdc) (row : entry) : Prop :=
  has_block d DAC (entry_dac_tile row) (entry_dac_block row) ∧
  has_block d ADC (entry_adc_tile row) (entry_adc_block row).

(** Every attribute of [s] that is bound is bound as in [full]. *)
Definition within (s full : instance) : Prop :=
  (dac_tile s = None ∨ dac_tile s = dac_tile full) ∧
  (dac_block s = None ∨ dac_block s = dac_block full) ∧
  (adc_tile s = None ∨ adc_tile s = adc_tile full) ∧
  (adc_block s = None ∨ adc_block s = adc_block full).

(** Two optional values do not disagree. *)
Definition agree {A} (x y : option A) : Prop :=
  ∀ a b, x = Some a → y = Some b → a = b.

(** The state right after the constructor of the base class was called. *)
Definition loaded (env : environment) (bitfile_name : option string) (kw : kwargs) : world :=
  {| calls := [SuperInit (bitfile_path env bitfile_name) kw]; self := fresh |}.

(** A construction fails and has made no call into the vendor stack. *)
Definition fails_before_any_call (r : result unit * world) : Prop :=
  (∃ e, r.1 = Raised e) ∧ calls r.2 = [].

(** An environment in which every call into the vendor stack returns. *)
Definition quiet (file : string) (vars : gmap string string) (d : RFdc) : environment :=
  {| module_file := file;
     environ := vars;
     super_init_raises := λ _ _, None;
     rfdc := Some d;
     set_custom_lmclks_raises := None;
     configure_adcs_raises := λ _, None;
     configure_dacs_raises := None |}.

(** A board of the given name with the package installed system-wide. *)
Definition on_board (board : string) : environment :=
  quiet "/usr/lib/python3/site-packages/rfsoc_nrssb/overlay.py"
        {[ "BOARD" := board ]} xrfdc_layout.

(** The state after further calls were made. *)
Definition after (w : world) (cs : list call) : world :=
  {| calls := calls w ++ cs; self := self w |}.

(** A name with no separator in it: the last component of a path. *)
Fixpoint is_basename (name : string) : bool :=
  match name with
  | EmptyString => true
  | String c rest => negb (posixpath.is_sep c) && is_basename rest
  end.

(** The place of the bitstream below the directory of the module. *)
Definition default_bitfile : string := "rfsoc_nrssb/bitstream/rfsoc_nrssb.bit".

(** The state once the branch of a row has bound the four attributes. *)
Definition selected (env : environment) (bitfile_name : option string) (kw : kwargs)
    (row : entry) : world :=
  {| calls := [SuperInit (bitfile_path env bitfile_name) kw]; self := bound_at row |}.

(** The attributes a construction binds when nothing stops it, as a
    function of what [os.environ] holds for [BOARD]. *)
Definition expected (board : option string) : instance :=
  match board ≫= (mapping_table !!.) with
  | Some row => bound_at row
  | None => fresh
  end.

(** The ways a construction can end, in the order the constructor reaches
    them. *)
Inductive outcome (env : environment) (bitfile_name : option string)
    (init_rf_clks : bool) (kw : kwargs) : result unit * world → Prop :=
| super_raised what :
    super_init_raises env (bitfile_path env bitfile_name) kw = Some what →
    outcome env bitfile_name init_rf_clks kw
      (Raised (Foreign what), loaded env bitfile_name kw)
| board_unset :
    super_init_raises env (bitfile_path env bitfile_name) kw = None →
    environ env !! "BOARD" = None →
    outcome env bitfile_name init_rf_clks kw
      (Raised (KeyError "BOARD"), loaded env bitfile_name kw)
| board_unknown b :
    super_init_raises env (bitfile_path env bitfile_name) kw = None →
    environ env !! "BOARD" = Some b →
    b ∉ recognized_boards →
    outcome env bitfile_name init_rf_clks kw
      (Raised (RuntimeError "Unknown error occurred."), loaded env bitfile_name kw)
| converter_missing b row e s :
    super_init_raises env (bitfile_path env bitfile_name) kw = None →
    environ env !! "BOARD" = Some b →
    mapping_table !! b = Some row →
    e = IndexError ∨ e = AttributeError "rfdc" →
    within s (bound_at row) →
    (∀ d, rfdc env = Some d → ¬ supplies d row) →
    outcome env bitfile_name init_rf_clks kw
      (Raised e, {| calls := calls (loaded env bitfile_name kw); self := s |})
| clocks_unbound b row :
    super_init_raises env (bitfile_path env bitfile_name) kw = None →
    environ env !! "BOARD" = Some b →
    mapping_table !! b = Some row →
    init_rf_clks = true →
    outcome env bitfile_name init_rf_clks kw
      (Raised (NameError "clocks"), selected env bitfile_name kw row)
| adcs_raised b row what :
    super_init_raises env (bitfile_path env bitfile_name) kw = None →
    environ env !! "BOARD" = Some b →
    mapping_table !! b = Some row →
    init_rf_clks = false →
    configure_adcs_raises env (fs_of b) = Some what →
    outcome env bitfile_name init_rf_clks kw
      (Raised (Foreign what),
       after (selected env bitfile_name kw row) [ConfigureAdcs (fs_of b)])
| dacs_raised b row what :
    super_init_raises env (bitfile_path env bitfile_name) kw = None →
    environ env !! "BOARD" = Some b →
    mapping_table !! b = Some row →
    init_rf_clks = false →
    configure_adcs_raises env (fs_of b) = None →
    configure_dacs_raises env = Some what →
    outcome env bitfile_name init_rf_clks kw
      (Raised (Foreign what),
       after (selected env bitfile_name kw row) [ConfigureAdcs (fs_of b); ConfigureDacs])
| constructed b row :
    super_init_raises env (bitfile_path env bitfile_name) kw = None →
    environ env !! "BOARD" = Some b →
    mapping_table !! b = Some row →
    init_rf_clks = false →
    configure_adcs_raises env (fs_of b) = None →
    configure_dacs_raises env = None →
    outcome env bitfile_name init_rf_clks kw
      (Returned tt,
       after (selected env bitfile_name kw row) [ConfigureAdcs (fs_of b); ConfigureDacs]).

(** ** The stages, one by one *)

Lemma Overlay_init_stages env bitfile_name init_rf_clks kw :
  Overlay_init env bitfile_name init_rf_clks kw =
    (super_init env (bitfile_path env bitfile_name) kw ;;
     board <- environ_getitem env "BOARD" ;;
     select_converters env board ;;
     configure env board init_rf_clks).
Proof. reflexivity. Qed.

Lemma mapping_table_cases (b : string) :
  (b = "RFSoC4x2" ∧ mapping_table !! b = Some (Entry 2 0 2 1 3840.00%float)) ∨
  (b = "ZCU208" ∧ mapping_table !! b = Some (Entry 2 0 1 0 3840.00%float)) ∨
  (b = "ZCU216" ∧ mapping_table !! b = Some (Entry 2 0 1 0 1920.00%float)) ∨
  (b = "RFSoC2x2" ∧ mapping_table !! b = Some (Entry 1 0 2 0 3840.00%float)) ∨
  (b = "ZCU111" ∧ mapping_table !! b = Some (Entry 1 2 0 0 3840.00%float)) ∨
  ((b ∉ recognized_boards) ∧ mapping_table !! b = None).
Proof.
  destruct (decide (b = "RFSoC4x2")) as [->|H1]; [left; done|right].
  destruct (decide (b = "ZCU208")) as [->|H2]; [left; done|right].
  destruct (decide (b = "ZCU216")) as [->|H3]; [left; done|right].
  destruct (decide (b = "RFSoC2x2")) as [->|H4]; [left; done|right].
  destruct (decide (b = "ZCU111")) as [->|H5]; [left; done|right].
  split.
  - unfold recognized_boards. rewrite !elem_of_cons, elem_of_nil. tauto.
  - unfold mapping_table. simpl.
    by rewrite !lookup_insert_ne, lookup_empty.
Qed.

(** The chain of branches does what the table says. *)
Lemma select_converters_table env (b : string) :
  select_converters env b =
    match mapping_table !! b with
    | Some row => select env row
    | None => raise (RuntimeError "Unknown error occurred.")
    end.
Proof.
  destruct (mapping_table_cases b)
    as [[-> ->]|[[-> ->]|[[-> ->]|[[-> ->]|[[-> ->]|[Hb ->]]]]]]; try reflexivity.
  unfold recognized_boards in Hb.
  rewrite !elem_of_cons, elem_of_nil in Hb.
  unfold select_converters.
  rewrite (proj2 (String.eqb_neq b "RFSoC4x2")) by tauto.
  rewrite bool_decide_eq_false_2
    by (rewrite !elem_of_cons, elem_of_nil; tauto).
  rewrite (proj2 (String.eqb_neq b "RFSoC2x2")) by tauto.
  rewrite (proj2 (String.eqb_neq b "ZCU111")) by tauto.
  reflexivity.
Qed.

(** The sample frequency the code chooses is the one of the table. *)
Lemma fs_of_table (b : string) (row : entry) :
  mapping_table !! b = Some row → fs_of b = entry_sample_freq row.
Proof.
  destruct (mapping_table_cases b)
    as [[-> ->]|[[-> ->]|[[-> ->]|[[-> ->]|[[-> ->]|[Hb ->]]]]]];
    intros [= <-]; reflexivity.
Qed.

Lemma mapping_table_recognized (b : string) :
  b ∈ recognized_boards ↔ is_Some (mapping_table !! b).
Proof.
  destruct (mapping_table_cases b)
    as [[-> ->]|[[-> ->]|[[-> ->]|[[-> ->]|[[-> ->]|[Hb ->]]]]]];
    try (split; [eauto | intros _; unfold recognized_boards;
                          rewrite !elem_of_cons; tauto]).
  split; [done | intros [? [=]]].
Qed.

(** The whole constructor, stage by stage. *)
Lemma construct_stages env bitfile_name init_rf_clks kw :
  construct env bitfile_name init_rf_clks kw =
    match super_init_raises env (bitfile_path env bitfile_name) kw with
    | Some what => (Raised (Foreign what), loaded env bitfile_name kw)
    | None =>
        match environ env !! "BOARD" with
        | None => (Raised (KeyError "BOARD"), loaded env bitfile_name kw)
        | Some b =>
            match mapping_table !! b with
            | None => (Raised (RuntimeError "Unknown error occurred."),
                       loaded env bitfile_name kw)
            | Some row =>
                match select env row (loaded env bitfile_name kw) with
                | (Returned _, w) => configure env b init_rf_clks w
                | (Raised e, w) => (Raised e, w)
                end
            end
        end
    end.
Proof.
  unfold construct. rewrite Overlay_init_stages.
  unfold bind at 1, super_init, invoke. fold (loaded env bitfile_name kw).
  destruct (super_init_raises _ _ _); [reflexivity|].
  unfold bind at 1, environ_getitem.
  destruct (environ env !! "BOARD") as [b|]; [|reflexivity].
  unfold ret, bind at 1. rewrite select_converters_table.
  destruct (mapping_table !! b); reflexivity.
Qed.

(** Unfold the operations of the monad and of the constructor's statements. *)
Ltac unfold_statements :=
  unfold select, set_dac_tile, set_dac_block, set_adc_tile, set_adc_block,
    rfdc_tile, tile_block, getattr_tile, self_rfdc, getitem, get_self,
    set_self, bind, ret, raise; simpl.

(** Split on the next answer the outcome depends on. *)
Ltac split_answer :=
  match goal with
  | |- context [match ?l !! ?i with _ => _ end] => destruct (l !! i) eqn:?; simpl
  | |- context [bool_decide ?P] => destruct (bool_decide_reflect P); simpl
  end.

(** The four assignments of a branch touch the attributes only; they stop
    at the first subscript the driver does not have. *)
Lemma select_run env (row : entry) (cs : list call) :
  ∃ r s,
    select env row {| calls := cs; self := fresh |} = (r, {| calls := cs; self := s |}) ∧
    within s (bound_at row) ∧
    (r = Returned tt → s = bound_at row) ∧
    (∀ d, rfdc env = Some d → supplies d row → r = Returned tt) ∧
    (∀ e, r = Raised e → e = IndexError ∨ e = AttributeError "rfdc").
Proof.
  destruct row as [dt db at_ ab fs].
  unfold supplies, has_block, bound_at, within. unfold_statements.
  destruct (rfdc env) as [d|]; simpl.
  2:{ eexists _, _. split; [reflexivity|]. simpl.
      repeat split; auto; try discriminate. intros e [= <-]. auto. }
  repeat split_answer;
    (eexists _, _; split; [reflexivity|]; simpl;
     split; [tauto|];
     split; [first [discriminate | reflexivity]|];
     split; [intros d' [= <-] [H1 H2]; repeat case_match; simplify_eq;
             first [reflexivity | tauto | lia]
            |first [discriminate | intros e [= <-]; auto]]).
Qed.

(** With [init_rf_clks] true the name [clocks] is looked up and is not bound. *)
Lemma configure_with_clocks env (b : string) (w : world) :
  configure env b true w = (Raised (NameError "clocks"), w).
Proof. reflexivity. Qed.

(** With [init_rf_clks] false the two configuration calls are made in turn. *)
Lemma configure_without_clocks env (b : string) (w : world) :
  configure env b false w =
    match configure_adcs_raises env (fs_of b) with
    | Some what => (Raised (Foreign what), after w [ConfigureAdcs (fs_of b)])
    | None =>
        match configure_dacs_raises env with
        | Some what =>
            (Raised (Foreign what), after w [ConfigureAdcs (fs_of b); ConfigureDacs])
        | None => (Returned tt, after w [ConfigureAdcs (fs_of b); ConfigureDacs])
        end
    end.
Proof.
  unfold configure, configure_adcs, configure_dacs, invoke, bind, ret, after.
  simpl. destruct (configure_adcs_raises env (fs_of b)); [reflexivity|].
  destruct (configure_dacs_raises env);
    cbn [calls self]; by rewrite <- (assoc_L (++)).
Qed.

(** *** Paths *)

Section Paths.
Import posixpath.

Lemma append_cons (c : ascii) (s t : string) :
  (String c s ++ t)%string = String c (s ++ t).
Proof. reflexivity. Qed.

Lemma append_assoc (s t u : string) : ((s ++ t) ++ u)%string = (s ++ (t ++ u))%string.
Proof.
  induction s as [|c s IH]; [reflexivity|].
  rewrite !append_cons. by rewrite IH.
Qed.

Lemma endswith_sep_append (s : string) (c : ascii) (t : string) :
  endswith_sep (s ++ String c t) = endswith_sep (String c t).
Proof.
  induction s as [|a s IH]; [reflexivity|].
  rewrite append_cons. destruct s as [|b s]; [exact IH|].
  rewrite append_cons in *. exact IH.
Qed.

(** A turn of the loop of [join] on a path that ends in a name. *)
Lemma join_step_name (s : string) (c : ascii) (t b : string) :
  startswith_sep b = false → endswith_sep (String c t) = false →
  join_step (s ++ String c t) b = ((s ++ String c t) ++ String sep b)%string.
Proof.
  intros Hb Ht. unfold join_step. rewrite Hb.
  destruct (s ++ String c t)%string as [|a r] eqn:E.
  - by destruct s.
  - by rewrite <- E, endswith_sep_append, Ht.
Qed.

(** What [join] makes of a directory and the three components of the
    default bitstream. *)
Lemma join_default (d : string) :
  join d ["rfsoc_nrssb"; "bitstream"; "rfsoc_nrssb.bit"] =
    match d with
    | EmptyString => default_bitfile
    | _ => if endswith_sep d then (d ++ default_bitfile)%string
           else (d ++ String sep default_bitfile)%string
    end.
Proof.
  unfold join, default_bitfile. cbn [fold_left].
  destruct d as [|c d]; [reflexivity|].
  unfold join_step at 3. cbn [startswith_sep].
  change (is_sep "r") with false. cbv iota.
  destruct (endswith_sep (String c d));
    rewrite !join_step_name by reflexivity;
    by rewrite !append_assoc.
Qed.

Lemma upto_last_sep_basename (name : string) :
  is_basename name = true → upto_last_sep name = EmptyString.
Proof.
  induction name as [|c name IH]; [reflexivity|].
  simpl. intros [Hc Hn]%andb_prop. rewrite (IH Hn).
  by destruct (is_sep c).
Qed.

Lemma upto_last_sep_append (dir rest : string) :
  upto_last_sep (dir ++ String sep rest) = (dir ++ String sep (upto_last_sep rest))%string.
Proof.
  induction dir as [|c dir IH]; [reflexivity|].
  rewrite !append_cons. simpl. rewrite IH.
  destruct (is_sep c); [reflexivity|].
  by destruct dir.
Qed.

Lemma all_sep_append_sep (dir : string) :
  dir ≠ EmptyString → endswith_sep dir = false →
  all_sep (dir ++ String sep EmptyString) = false.
Proof.
  induction dir as [|c dir IH]; [done|].
  intros _ He. rewrite append_cons. simpl.
  destruct dir as [|b dir].
  - simpl in He. by rewrite He.
  - rewrite IH; [apply andb_false_r|done|exact He].
Qed.

Lemma rstrip_sep_append_sep (dir : string) :
  dir ≠ EmptyString → endswith_sep dir = false →
  rstrip_sep (dir ++ String sep EmptyString) = dir.
Proof.
  induction dir as [|c dir IH]; [done|].
  intros _ He. rewrite append_cons. simpl.
  destruct dir as [|b dir].
  - simpl in *. by rewrite He.
  - rewrite IH; [reflexivity|done|exact He].
Qed.

(** The directory of a file that lies in [dir]. *)
Lemma dirname_file (dir name : string) :
  dir ≠ EmptyString → endswith_sep dir = false → is_basename name = true →
  dirname (dir ++ String sep name) = dir.
Proof.
  intros Hd He Hn. unfold dirname.
  rewrite upto_last_sep_append, (upto_last_sep_basename _ Hn).
  rewrite (all_sep_append_sep _ Hd He), (rstrip_sep_append_sep _ Hd He).
  destruct dir; [done|reflexivity].
Qed.

End Paths.

(** ** How a construction ends *)

Lemma mapping_table_None (b : string) :
  mapping_table !! b = None → b ∉ recognized_boards.
Proof.
  intros Hb Hin. apply mapping_table_recognized in Hin as [row Hrow]. congruence.
Qed.

(** Every construction ends in one of the ways of [outcome]. *)
Lemma construct_outcome env bitfile_name init_rf_clks kw :
  outcome env bitfile_name init_rf_clks kw (construct env bitfile_name init_rf_clks kw).
Proof.
  rewrite construct_stages.
  destruct (super_init_raises env (bitfile_path env bitfile_name) kw) as [what|] eqn:Hs;
    [by constructor|].
  destruct (environ env !! "BOARD") as [b|] eqn:Hb; [|by constructor].
  destruct (mapping_table !! b) as [row|] eqn:Hrow;
    [|by eapply board_unknown, mapping_table_None].
  unfold loaded at 1.
  destruct (select_run env row [SuperInit (bitfile_path env bitfile_name) kw])
    as (r & s & -> & Hin & Hall & Hsup & Herr).
  destruct r as [[]|e].
  - rewrite (Hall eq_refl). fold (selected env bitfile_name kw row).
    destruct init_rf_clks.
    + rewrite configure_with_clocks. by eapply clocks_unbound.
    + rewrite configure_without_clocks.
      destruct (configure_adcs_raises env (fs_of b)) as [what|] eqn:Ha;
        [by eapply adcs_raised|].
      destruct (configure_dacs_raises env) as [what|] eqn:Hd;
        [by eapply dacs_raised | by eapply constructed].
  - eapply (converter_missing _ _ _ _ b row e s); eauto.
    intros d Hd Hrow'. by specialize (Hsup d Hd Hrow').
Qed.

(** Take a construction apart along [outcome]. *)
Ltac by_outcome env bitfile_name init_rf_clks kw :=
  let H := fresh "Hout" in
  let E := fresh "Erun" in
  pose proof (construct_outcome env bitfile_name init_rf_clks kw) as H;
  destruct (construct env bitfile_name init_rf_clks kw) as [? ?] eqn:E;
  inversion H; clear H; simplify_eq.

(** Once the base class's constructor has returned, the board is in the
    table and the driver supplies the row's blocks, what is left of the
    construction is the clock start-up and the two configuration calls. *)
Lemma construct_past_selection env bitfile_name init_rf_clks kw
    (b : string) (row : entry) (d : RFdc) :
  super_init_raises env (bitfile_path env bitfile_name) kw = None →
  environ env !! "BOARD" = Some b →
  mapping_table !! b = Some row →
  rfdc env = Some d →
  supplies d row →
  construct env bitfile_name init_rf_clks kw =
    configure env b init_rf_clks (selected env bitfile_name kw row).
Proof.
  intros Hs Hb Hrow Hd Hsup. rewrite construct_stages, Hs, Hb, Hrow.
  unfold loaded.
  destruct (select_run env row [SuperInit (bitfile_path env bitfile_name) kw])
    as (r & s & -> & _ & Hall & Hret & _).
  rewrite (Hret d Hd Hsup) in *. by rewrite (Hall eq_refl).
Qed.

(** The calls of a construction: the base class's constructor first, and
    after it nothing, or the configuration calls the constructor got to. *)
Lemma construct_calls env bitfile_name init_rf_clks kw :
  ∃ rest,
    calls (construct env bitfile_name init_rf_clks kw).2 =
      SuperInit (bitfile_path env bitfile_name) kw :: rest ∧
    (rest = [] ∨
     init_rf_clks = false ∧
     ∃ b, environ env !! "BOARD" = Some b ∧ b ∈ recognized_boards ∧
          (rest = [ConfigureAdcs (fs_of b)] ∨
           rest = [ConfigureAdcs (fs_of b); ConfigureDacs])).
Proof.
  by_outcome env bitfile_name init_rf_clks kw; simpl;
    eexists; (split; [reflexivity|]);
    first [ by left
          | right; split; [done|]; eexists; split; [eassumption|];
            split; [apply mapping_table_recognized; eauto|]; auto ].
Qed.

(** The attributes of a construction: those bound are the ones of the row
    of the board. *)
Lemma construct_self env bitfile_name init_rf_clks kw :
  within (self (construct env bitfile_name init_rf_clks kw).2)
         (expected (environ env !! "BOARD")).
Proof.
  by_outcome env bitfile_name init_rf_clks kw; simpl;
    repeat match goal with H : environ env !! "BOARD" = _ |- _ => rewrite H; clear H end;
    unfold expected; simpl;
    repeat match goal with H : mapping_table !! _ = _ |- _ => rewrite H; clear H end;
    first [ assumption | unfold within; tauto ].
Qed.

(** A construction that returns has bound all four attributes and has made
    both configuration calls. *)
Lemma construct_returned env bitfile_name init_rf_clks kw :
  (construct env bitfile_name init_rf_clks kw).1 = Returned tt →
  init_rf_clks = false ∧
  ∃ b row,
    environ env !! "BOARD" = Some b ∧ mapping_table !! b = Some row ∧
    (construct env bitfile_name init_rf_clks kw).2 =
      after (selected env bitfile_name kw row) [ConfigureAdcs (fs_of b); ConfigureDacs].
Proof.
  by_outcome env bitfile_name init_rf_clks kw; simpl; try discriminate.
  intros _. split; [done|]. eauto.
Qed.

Lemma within_agree (s1 s2 full : instance) :
  within s1 full → within s2 full →
  agree (dac_tile s1) (dac_tile s2) ∧ agree (dac_block s1) (dac_block s2) ∧
  agree (adc_tile s1) (adc_tile s2) ∧ agree (adc_block s1) (adc_block s2).
Proof.
  unfold within, agree. intros (A1 & A2 & A3 & A4) (B1 & B2 & B3 & B4).
  repeat split; intros; intuition congruence.
Qed.

(** The sample frequency [configure_adcs] receives is the one chosen for
    the board that was read. *)
Lemma configure_adcs_fs_of env bitfile_name init_rf_clks kw (f : float) :
  ConfigureAdcs f ∈ calls (construct env bitfile_name init_rf_clks kw).2 →
  ∃ b, environ env !! "BOARD" = Some b ∧ b ∈ recognized_boards ∧ f = fs_of b.
Proof.
  destruct (construct_calls env bitfile_name init_rf_clks kw)
    as (rest & -> & Hrest).
  intros Hf.
  destruct Hrest as [-> | (_ & b & Hb & Hrec & [-> | ->])];
    repeat (apply elem_of_cons in Hf as [Hf | Hf]; simplify_eq);
    first [by apply elem_of_nil in Hf | eauto].
Qed.

(** ** The claims *)

(** C1: a construction with [init_rf_clks] true, the default, never
    returns: whatever the environment, it ends in an exception.  On each of
    the five recognized boards, with default arguments and a vendor stack
    whose calls all return, the exception is [NameError] for the name
    [clocks], which line 53 uses and nothing in the module binds. *)
Theorem default_construction_raises :
  (∀ env bitfile_name kw, ∃ e, (construct env bitfile_name true kw).1 = Raised e) ∧
  Forall (λ b, (construct (on_board b) None true []).1 = Raised (NameError "clocks"))
         recognized_boards.
Proof.
  split.
  - intros env bitfile_name kw.
    by_outcome env bitfile_name true kw; simpl; eauto.
  - repeat constructor; reflexivity.
Qed.

(** C2: on a recognized board, once the constructor of the base class has
    returned and the driver has the tiles and blocks in question, the
    constructor binds [dac_tile], [dac_block], [adc_tile] and [adc_block] at
    the subscripts of the table: 2/0 and 2/1 on RFSoC4x2, 2/0 and 1/0 on
    ZCU208 and ZCU216, 1/0 and 2/0 on RFSoC2x2, 1/2 and 0/0 on ZCU111. *)
Theorem constructor_binds_table_converters env bitfile_name init_rf_clks kw
    (b : string) (d : RFdc) :
  super_init_raises env (bitfile_path env bitfile_name) kw = None →
  environ env !! "BOARD" = Some b →
  rfdc env = Some d →
  let s := self (construct env bitfile_name init_rf_clks kw).2 in
  (b = "RFSoC4x2" → has_block d DAC 2 0 → has_block d ADC 2 1 → s = bound 2 0 2 1) ∧
  (b = "ZCU208" ∨ b = "ZCU216" →
   has_block d DAC 2 0 → has_block d ADC 1 0 → s = bound 2 0 1 0) ∧
  (b = "RFSoC2x2" → has_block d DAC 1 0 → has_block d ADC 2 0 → s = bound 1 0 2 0) ∧
  (b = "ZCU111" → has_block d DAC 1 2 → has_block d ADC 0 0 → s = bound 1 2 0 0).
Proof.
  intros Hs Hb Hd s.
  assert (Hrow : ∀ row, mapping_table !! b = Some row → supplies d row →
                        s = bound_at row).
  { intros row Hrow Hsup. unfold s.
    rewrite (construct_past_selection _ _ _ _ b row d) by done.
    destruct init_rf_clks.
    - by rewrite configure_with_clocks.
    - rewrite configure_without_clocks.
      destruct (configure_adcs_raises env (fs_of b)); [done|].
      by destruct (configure_dacs_raises env). }
  repeat split.
  - intros -> H1 H2. by apply (Hrow (Entry 2 0 2 1 3840.00%float)).
  - intros [-> | ->] H1 H2.
    + by apply (Hrow (Entry 2 0 1 0 3840.00%float)).
    + by apply (Hrow (Entry 2 0 1 0 1920.00%float)).
  - intros -> H1 H2. by apply (Hrow (Entry 1 0 2 0 3840.00%float)).
  - intros -> H1 H2. by apply (Hrow (Entry 1 2 0 0 3840.00%float)).
Qed.

Lemma constructor_binds_table_converters_witness :
  self (construct (on_board "ZCU111") (Some "nrssb.bit") true []).2 = bound 1 2 0 0.
Proof.
  destruct (constructor_binds_table_converters
              (on_board "ZCU111") (Some "nrssb.bit") true [] "ZCU111" xrfdc_layout)
    as (_ & _ & _ & H); [reflexivity..|].
  apply H; [reflexivity | compute; lia | compute; lia].
Defined.

(** C3: whenever [configure_adcs] is called, the sample frequency it
    receives is 1920.00 if the board is ZCU216 and 3840.00 if the board is
    one of the four other recognized boards; and it is called when
    [init_rf_clks] is false, the constructor of the base class has returned
    and the driver supplies the blocks of the board's row. *)
Theorem configure_adcs_sample_freq env bitfile_name init_rf_clks kw (b : string) :
  environ env !! "BOARD" = Some b →
  (∀ f, ConfigureAdcs f ∈ calls (construct env bitfile_name init_rf_clks kw).2 →
        (b = "ZCU216" → f = 1920.00%float) ∧
        (b ∈ ["RFSoC4x2"; "ZCU208"; "RFSoC2x2"; "ZCU111"] → f = 3840.00%float)) ∧
  (∀ row d,
     init_rf_clks = false →
     super_init_raises env (bitfile_path env bitfile_name) kw = None →
     mapping_table !! b = Some row → rfdc env = Some d → supplies d row →
     ∃ f, ConfigureAdcs f ∈ calls (construct env bitfile_name init_rf_clks kw).2).
Proof.
  intros Hb. split.
  - intros f Hf.
    destruct (configure_adcs_fs_of _ _ _ _ _ Hf) as (b' & Hb' & _ & ->).
    simplify_eq.
    split; [by intros -> |].
    rewrite !elem_of_cons, elem_of_nil.
    intros [-> | [-> | [-> | [-> | []]]]]; reflexivity.
  - intros row d -> Hs Hrow Hd Hsup. exists (fs_of b).
    rewrite (construct_past_selection _ _ _ _ b row d) by done.
    rewrite configure_without_clocks.
    destruct (configure_adcs_raises env (fs_of b));
      [|destruct (configure_dacs_raises env)];
      simpl; rewrite !elem_of_cons; auto.
Qed.

Lemma configure_adcs_sample_freq_witness :
  ConfigureAdcs 1920.00%float ∈ calls (construct (on_board "ZCU216") None false []).2 ∧
  ∀ f, ConfigureAdcs f ∈ calls (construct (on_board "ZCU216") None false []).2 →
       f = 1920.00%float.
Proof.
  destruct (configure_adcs_sample_freq (on_board "ZCU216") None false [] "ZCU216")
    as [Hf Hcall]; [reflexivity|].
  split.
  - destruct (Hcall (Entry 2 0 1 0 1920.00%float) xrfdc_layout) as [f Hin];
      [reflexivity | reflexivity | reflexivity | reflexivity
      | split; compute; lia |].
    by rewrite <- (proj1 (Hf f Hin) eq_refl).
  - intros f Hin. by apply (Hf f Hin).
Defined.

(** C4, as the specification has it, fails: on a board that is not
    recognized the construction does fail, but the constructor of the base
    class, which loads the bitstream, has been called by then. *)
Lemma unknown_board_fails_after_super_init :
  ("ZCU102" ∉ recognized_boards) ∧
  ¬ fails_before_any_call (construct (on_board "ZCU102") None true []).
Proof.
  split.
  - by apply mapping_table_None.
  - intros [_ Hcalls]. vm_compute in Hcalls. discriminate.
Qed.

(** C4, amended: for a board name outside the five recognized ones, once
    the constructor of the base class has returned, the construction raises
    [RuntimeError] at once: the call of the base class's constructor is the
    only call made into the vendor stack, and no attribute is bound. *)
Theorem unknown_board_raises_RuntimeError env bitfile_name init_rf_clks kw (b : string) :
  super_init_raises env (bitfile_path env bitfile_name) kw = None →
  environ env !! "BOARD" = Some b →
  b ∉ recognized_boards →
  construct env bitfile_name init_rf_clks kw =
    (Raised (RuntimeError "Unknown error occurred."),
     {| calls := [SuperInit (bitfile_path env bitfile_name) kw]; self := fresh |}).
Proof.
  intros Hs Hb Hnot. rewrite construct_stages, Hs, Hb.
  destruct (mapping_table !! b) as [row|] eqn:Hrow; [|reflexivity].
  destruct Hnot. apply mapping_table_recognized. eauto.
Qed.

Lemma unknown_board_raises_RuntimeError_witness :
  construct (on_board "ZCU102") (Some "nrssb.bit") false [("download", PyBool true)] =
    (Raised (RuntimeError "Unknown error occurred."),
     {| calls := [SuperInit "nrssb.bit" [("download", PyBool true)]]; self := fresh |}).
Proof.
  apply (unknown_board_raises_RuntimeError
           (on_board "ZCU102") (Some "nrssb.bit") false [("download", PyBool true)]
           "ZCU102");
    [reflexivity | reflexivity | by apply mapping_table_None].
Defined.

(** C5: once the constructor of the base class has returned and [BOARD] has
    been read, the construction raises the error for an unknown board if and
    only if the value read is not one of the five recognized names; and when
    it raises that error, neither [configure_adcs] nor [configure_dacs] has
    been called. *)
Theorem unknown_board_error_iff env bitfile_name init_rf_clks kw (b : string) :
  super_init_raises env (bitfile_path env bitfile_name) kw = None →
  environ env !! "BOARD" = Some b →
  ((construct env bitfile_name init_rf_clks kw).1 =
     Raised (RuntimeError "Unknown error occurred.") ↔
   b ∉ recognized_boards) ∧
  ((construct env bitfile_name init_rf_clks kw).1 =
     Raised (RuntimeError "Unknown error occurred.") →
   ∀ c, c ∈ calls (construct env bitfile_name init_rf_clks kw).2 →
        is_configure c = false).
Proof.
  intros Hs Hb.
  assert (Hrun : b ∉ recognized_boards →
                 construct env bitfile_name init_rf_clks kw =
                   (Raised (RuntimeError "Unknown error occurred."),
                    loaded env bitfile_name kw)).
  { intros Hnot. rewrite construct_stages, Hs, Hb.
    destruct (mapping_table !! b) as [row|] eqn:Hrow; [|reflexivity].
    destruct Hnot. apply mapping_table_recognized. eauto. }
  assert (Hiff : (construct env bitfile_name init_rf_clks kw).1 =
                   Raised (RuntimeError "Unknown error occurred.") ↔
                 b ∉ recognized_boards).
  { split.
    - by_outcome env bitfile_name init_rf_clks kw; simpl; intros Hr;
        try discriminate; try done.
      match goal with H : _ ∨ _ |- _ => destruct H as [-> | ->] end;
        discriminate.
    - intros Hnot. by rewrite (Hrun Hnot). }
  split; [exact Hiff|].
  intros Hnot%Hiff c. rewrite (Hrun Hnot). simpl.
  intros ->%list_elem_of_singleton. reflexivity.
Qed.

Lemma unknown_board_error_iff_witness :
  (construct (on_board "zcu111") None true []).1 =
    Raised (RuntimeError "Unknown error occurred.") ∧
  (construct (on_board "ZCU111") None true []).1 ≠
    Raised (RuntimeError "Unknown error occurred.").
Proof.
  split.
  - apply (unknown_board_error_iff (on_board "zcu111") None true [] "zcu111");
      [reflexivity | reflexivity | by apply mapping_table_None].
  - intros H.
    apply (unknown_board_error_iff (on_board "ZCU111") None true [] "ZCU111")
      in H; [|reflexivity|reflexivity].
    apply H, mapping_table_recognized. by eexists.
Defined.

(** C6: a construction with [init_rf_clks] true, the default, calls no
    configuration method at all, whatever the environment.  On the board
    RFSoC4x2, with default arguments and a vendor stack whose calls all
    return, it binds the four attributes, raises [NameError] for [clocks],
    and has called nothing but the constructor of the base class. *)
Theorem default_construction_configures_nothing :
  (∀ env bitfile_name kw c,
     c ∈ calls (construct env bitfile_name true kw).2 → is_configure c = false) ∧
  construct (on_board "RFSoC4x2") None true [] =
    (Raised (NameError "clocks"),
     {| calls :=
          [SuperInit
             "/usr/lib/python3/site-packages/rfsoc_nrssb/rfsoc_nrssb/bitstream/rfsoc_nrssb.bit"
             []];
        self := bound 2 0 2 1 |}).
Proof.
  split; [|reflexivity].
  intros env bitfile_name kw c.
  destruct (construct_calls env bitfile_name true kw)
    as (rest & -> & [-> | (? & _)]); [|discriminate].
  intros ->%list_elem_of_singleton. reflexivity.
Qed.

(** C7: two constructions that read the same value of [BOARD] agree on
    what they select, whatever their arguments, the module's file, the
    driver and the answers of the vendor stack: an attribute both have bound
    is bound at the same tile and block subscripts, and a sample frequency
    both have passed to [configure_adcs] is the same.  When both return,
    each has bound all four attributes, the same ones, and both have passed
    the same sample frequency. *)
Theorem lookup_depends_on_BOARD_only env1 env2 bitfile_name1 bitfile_name2
    init_rf_clks1 init_rf_clks2 kw1 kw2 :
  environ env1 !! "BOARD" = environ env2 !! "BOARD" →
  let r1 := construct env1 bitfile_name1 init_rf_clks1 kw1 in
  let r2 := construct env2 bitfile_name2 init_rf_clks2 kw2 in
  (agree (dac_tile (self r1.2)) (dac_tile (self r2.2)) ∧
   agree (dac_block (self r1.2)) (dac_block (self r2.2)) ∧
   agree (adc_tile (self r1.2)) (adc_tile (self r2.2)) ∧
   agree (adc_block (self r1.2)) (adc_block (self r2.2))) ∧
  (∀ f1 f2, ConfigureAdcs f1 ∈ calls r1.2 → ConfigureAdcs f2 ∈ calls r2.2 → f1 = f2) ∧
  (r1.1 = Returned tt → r2.1 = Returned tt →
   self r1.2 = self r2.2 ∧
   is_Some (dac_tile (self r1.2)) ∧ is_Some (dac_block (self r1.2)) ∧
   is_Some (adc_tile (self r1.2)) ∧ is_Some (adc_block (self r1.2)) ∧
   ∃ f, ConfigureAdcs f ∈ calls r1.2 ∧ ConfigureAdcs f ∈ calls r2.2).
Proof.
  intros Hboard r1 r2. split; [|split].
  - apply (within_agree _ _ (expected (environ env1 !! "BOARD"))).
    + apply construct_self.
    + rewrite Hboard. apply construct_self.
  - intros f1 f2 (b1 & Hb1 & _ & ->)%configure_adcs_fs_of
                 (b2 & Hb2 & _ & ->)%configure_adcs_fs_of.
    congruence.
  - intros (_ & b1 & row1 & Hb1 & Hrow1 & Hw1)%construct_returned
           (_ & b2 & row2 & Hb2 & Hrow2 & Hw2)%construct_returned.
    unfold r1, r2. rewrite Hw1, Hw2. rewrite Hb1, Hb2 in Hboard.
    simplify_eq. simpl.
    repeat (split; [by eauto|]).
    exists (fs_of b2). rewrite !elem_of_cons. auto.
Qed.

Lemma lookup_depends_on_BOARD_only_witness :
  let env1 := on_board "RFSoC2x2" in
  let env2 := quiet "overlay.py" {[ "BOARD" := "RFSoC2x2"; "HOME" := "/root" ]}
                {| dac_tiles := [4; 2]; adc_tiles := [0; 0; 1] |} in
  let r1 := construct env1 None false [] in
  let r2 := construct env2 (Some "nrssb.bit") true [("download", PyBool false)] in
  environ env1 !! "BOARD" = environ env2 !! "BOARD" ∧
  agree (dac_tile (self r1.2)) (dac_tile (self r2.2)) ∧
  agree (dac_block (self r1.2)) (dac_block (self r2.2)) ∧
  agree (adc_tile (self r1.2)) (adc_tile (self r2.2)) ∧
  agree (adc_block (self r1.2)) (adc_block (self r2.2)).
Proof.
  intros env1 env2 r1 r2. split; [reflexivity|].
  apply (lookup_depends_on_BOARD_only env1 env2 None (Some "nrssb.bit")
           false true [] [("download", PyBool false)]).
  reflexivity.
Defined.

(** C8: when [BOARD] is not set in the environment, and the constructor of
    the base class has returned, the construction raises [KeyError] for the
    key [BOARD]; the call of the base class's constructor is the only call
    made, so neither configuration method was called, and no attribute is
    bound, so no branch on the board was taken. *)
Theorem board_unset_raises_KeyError env bitfile_name init_rf_clks kw :
  environ env !! "BOARD" = None →
  super_init_raises env (bitfile_path env bitfile_name) kw = None →
  construct env bitfile_name init_rf_clks kw =
    (Raised (KeyError "BOARD"),
     {| calls := [SuperInit (bitfile_path env bitfile_name) kw]; self := fresh |}).
Proof.
  intros Hb Hs. rewrite construct_stages, Hs, Hb. reflexivity.
Qed.

Lemma board_unset_raises_KeyError_witness :
  let env := quiet "/opt/rfsoc_nrssb/overlay.py" ∅ xrfdc_layout in
  environ env !! "BOARD" = None ∧
  super_init_raises env (bitfile_path env None) [] = None ∧
  construct env None true [] =
    (Raised (KeyError "BOARD"),
     {| calls := [SuperInit "/opt/rfsoc_nrssb/rfsoc_nrssb/bitstream/rfsoc_nrssb.bit" []];
        self := fresh |}).
Proof.
  split; [reflexivity|]. split; [reflexivity|].
  apply (board_unset_raises_KeyError
           (quiet "/opt/rfsoc_nrssb/overlay.py" ∅ xrfdc_layout) None true []);
    reflexivity.
Defined.

(** C9: on the board RFSoC4x2, with a vendor stack whose calls all return,
    the construction with [init_rf_clks] false returns after calling
    [configure_adcs] and [configure_dacs], while the one with [init_rf_clks]
    true raises [NameError] and calls neither; both bind the same four
    attributes.  With [init_rf_clks] false the clock start-up is never
    called, whatever the environment. *)
Theorem init_rf_clks_decides_configuration :
  let bitfile :=
    "/usr/lib/python3/site-packages/rfsoc_nrssb/rfsoc_nrssb/bitstream/rfsoc_nrssb.bit" in
  construct (on_board "RFSoC4x2") None false [] =
    (Returned tt,
     {| calls := [SuperInit bitfile []; ConfigureAdcs 3840.00%float; ConfigureDacs];
        self := bound 2 0 2 1 |}) ∧
  construct (on_board "RFSoC4x2") None true [] =
    (Raised (NameError "clocks"),
     {| calls := [SuperInit bitfile []]; self := bound 2 0 2 1 |}) ∧
  (∀ env bitfile_name kw,
     SetCustomLmclks ∉ calls (construct env bitfile_name false kw).2).
Proof.
  split; [reflexivity|]. split; [reflexivity|].
  intros env bitfile_name kw.
  destruct (construct_calls env bitfile_name false kw)
    as (rest & -> & [-> | (_ & b & _ & _ & [-> | ->])]);
    rewrite !elem_of_cons, elem_of_nil; intuition discriminate.
Qed.

(** C10: the first call of a construction is the constructor of the base
    class.  A [bitfile_name] that is given is passed to it as it is.  With
    [bitfile_name] left at [None] it receives the directory of the module's
    file joined with [rfsoc_nrssb], [bitstream] and [rfsoc_nrssb.bit]: the
    directory, a separator unless the directory is empty or ends in one,
    and [rfsoc_nrssb/bitstream/rfsoc_nrssb.bit]; for a module file [name]
    in a directory [dir] that is [dir/rfsoc_nrssb/bitstream/rfsoc_nrssb.bit]. *)
Theorem bitfile_name_passed_to_super env init_rf_clks kw :
  (∀ given,
     calls (construct env (Some given) init_rf_clks kw).2 !! 0 =
       Some (SuperInit given kw)) ∧
  (∃ path,
     calls (construct env None init_rf_clks kw).2 !! 0 = Some (SuperInit path kw) ∧
     path = posixpath.join (posixpath.dirname (module_file env))
              ["rfsoc_nrssb"; "bitstream"; "rfsoc_nrssb.bit"] ∧
     (let d := posixpath.dirname (module_file env) in
      path = match d with
             | EmptyString => default_bitfile
             | _ => if posixpath.endswith_sep d then (d ++ default_bitfile)%string
                    else (d ++ String posixpath.sep default_bitfile)%string
             end) ∧
     ∀ dir name,
       dir ≠ EmptyString → posixpath.endswith_sep dir = false →
       is_basename name = true →
       module_file env = (dir ++ String posixpath.sep name)%string →
       path = (dir ++ "/rfsoc_nrssb/bitstream/rfsoc_nrssb.bit")%string).
Proof.
  split.
  - intros given.
    by destruct (construct_calls env (Some given) init_rf_clks kw) as (rest & -> & _).
  - eexists. split.
    { by destruct (construct_calls env None init_rf_clks kw) as (rest & -> & _). }
    split; [reflexivity|]. split.
    + exact (join_default _).
    + intros dir name Hd He Hn Hfile. unfold bitfile_path.
      rewrite Hfile, (dirname_file _ _ Hd He Hn), join_default, He.
      by destruct dir.
Qed.

Lemma bitfile_name_passed_to_super_witness :
  calls (construct (on_board "ZCU208") None false []).2 !! 0 =
    Some (SuperInit
            "/usr/lib/python3/site-packages/rfsoc_nrssb/rfsoc_nrssb/bitstream/rfsoc_nrssb.bit"
            []).
Proof.
  destruct (bitfile_name_passed_to_super (on_board "ZCU208") false [])
    as (_ & path & Hcall & _ & _ & Hpath).
  rewrite Hcall.
  rewrite (Hpath "/usr/lib/python3/site-packages/rfsoc_nrssb" "overlay.py");
    [reflexivity | discriminate | reflexivity | reflexivity | reflexivity].
Defined.

(** The default bitstream of a module that was loaded by a relative name
    with no directory. *)
Example default_bitfile_relative :
  bitfile_path (quiet "overlay.py" ∅ xrfdc_layout) None =
    "rfsoc_nrssb/bitstream/rfsoc_nrssb.bit".
Proof. reflexivity. Qed.

(** The default bitstream of a module in the root directory. *)
Example default_bitfile_root :
  bitfile_path (quiet "/overlay.py" ∅ xrfdc_layout) None =
    "/rfsoc_nrssb/bitstream/rfsoc_nrssb.bit".
Proof. reflexivity. Qed.

(** ** Further properties of the constructor *)

(** Close a case of [select_cases] on the driver [d]. *)
Ltac close_on d :=
  exists d;
  repeat match goal with
         | H : ?l !! ?i = _ |- context [?l !! ?i] => rewrite H
         end; simpl;
  solve [repeat split; first [reflexivity | lia | tauto]].

(** Where the four assignments of a branch stop, and what they have bound
    by then. *)
Lemma select_cases env (row : entry) (cs : list call) :
  ∃ r s,
    select env row {| calls := cs; self := fresh |} = (r, {| calls := cs; self := s |}) ∧
    ((rfdc env = None ∧ r = Raised (AttributeError "rfdc") ∧ s = fresh) ∨
     (∃ d, rfdc env = Some d ∧
           ¬ has_block d DAC (entry_dac_tile row) (entry_dac_block row) ∧
           r = Raised IndexError ∧
           dac_tile s = (λ _, Tile DAC (entry_dac_tile row)) <$>
                          (dac_tiles d !! entry_dac_tile row) ∧
           dac_block s = None ∧ adc_tile s = None ∧ adc_block s = None) ∨
     (∃ d, rfdc env = Some d ∧
           has_block d DAC (entry_dac_tile row) (entry_dac_block row) ∧
           ¬ has_block d ADC (entry_adc_tile row) (entry_adc_block row) ∧
           r = Raised IndexError ∧
           dac_tile s = dac_tile (bound_at row) ∧
           dac_block s = dac_block (bound_at row) ∧
           adc_tile s = (λ _, Tile ADC (entry_adc_tile row)) <$>
                          (adc_tiles d !! entry_adc_tile row) ∧
           adc_block s = None) ∨
     (∃ d, rfdc env = Some d ∧ supplies d row ∧ r = Returned tt ∧ s = bound_at row)).
Proof.
  destruct row as [dt db at_ ab fs].
  unfold supplies, has_block, bound_at, bound. unfold_statements.
  destruct (rfdc env) as [d|]; simpl.
  2:{ eexists _, _. split; [reflexivity|]. left. auto. }
  repeat split_answer;
    (eexists _, _; split; [reflexivity|]; right; simpl;
     repeat match goal with
            | H : Some _ = Some _ |- _ => injection H as <-
            end;
     first [ discriminate
           | left; close_on d | right; left; close_on d | right; right; close_on d ]).
Qed.

(** The attributes are left alone by the clock start-up and the two
    configuration calls. *)
Lemma configure_self env (b : string) (init_rf_clks : bool) (w : world) :
  self (configure env b init_rf_clks w).2 = self w.
Proof.
  destruct init_rf_clks.
  - by rewrite configure_with_clocks.
  - rewrite configure_without_clocks.
    destruct (configure_adcs_raises env (fs_of b)); [done|].
    by destruct (configure_dacs_raises env).
Qed.

(** Take a construction apart along its stages: the constructor of the base
    class, the read of [BOARD], the branch on the board with the place where
    its assignments stop, then the clock start-up and the configuration
    calls. *)
Ltac by_stages env bitfile_name init_rf_clks kw :=
  rewrite ?(construct_stages env bitfile_name init_rf_clks kw);
  let Hs := fresh "Hsuper" in
  let Hb := fresh "Hboard" in
  let Hr := fresh "Hrow" in
  let Hd := fresh "Hdriver" in
  destruct (super_init_raises env (bitfile_path env bitfile_name) kw) eqn:Hs;
  [ | destruct (environ env !! "BOARD") as [?b|] eqn:Hb;
      [ match goal with
        | |- context [mapping_table !! ?b] =>
            destruct (mapping_table !! b) as [?row|] eqn:Hr;
            [ match goal with
              | |- context [select env ?row ?w] =>
                  let r := fresh "r" in
                  let s := fresh "s" in
                  unfold loaded;
                  destruct (select_cases env row
                              [SuperInit (bitfile_path env bitfile_name) kw])
                    as (r & s & -> &
                        [(Hd & -> & ->)
                        |[(?d & Hd & ? & -> & ? & ? & ? & ?)
                         |[(?d & Hd & ? & ? & -> & ? & ? & ? & ?)
                          |(?d & Hd & ? & -> & ->)]]])
              end | ]
        end | ] ].

(** Rewrite with what is known of the attributes where the assignments of
    a branch stopped. *)
Ltac rewrite_attributes :=
  repeat match goal with
         | H : dac_tile _ = _ |- _ => rewrite H in *; clear H
         | H : dac_block _ = _ |- _ => rewrite H in *; clear H
         | H : adc_tile _ = _ |- _ => rewrite H in *; clear H
         | H : adc_block _ = _ |- _ => rewrite H in *; clear H
         end.

(** X1: the constructor binds the attributes in the order [dac_tile],
    [dac_block], [adc_tile], [adc_block], and stops at the first failure:
    however a construction ends, an attribute that is bound has all the
    attributes before it bound as well. *)
Theorem attributes_bound_in_order env bitfile_name init_rf_clks kw :
  let s := self (construct env bitfile_name init_rf_clks kw).2 in
  (is_Some (dac_block s) → is_Some (dac_tile s)) ∧
  (is_Some (adc_tile s) → is_Some (dac_block s)) ∧
  (is_Some (adc_block s) → is_Some (adc_tile s)).
Proof.
  by_stages env bitfile_name init_rf_clks kw; simpl;
    rewrite ?configure_self; simpl;
    rewrite_attributes; simpl;
    repeat split; intros [? ?]; first [discriminate | by eexists].
Qed.

(** Split what is left of a construction once the branch has bound the four
    attributes: the clock start-up, then the two configuration calls. *)
Ltac by_configure env b init_rf_clks :=
  let Ha := fresh "Hadcs" in
  let Hc := fresh "Hdacs" in
  destruct init_rf_clks;
  [ rewrite ?configure_with_clocks
  | rewrite ?configure_without_clocks;
    destruct (configure_adcs_raises env (fs_of b)) eqn:Ha;
    [ | destruct (configure_dacs_raises env) eqn:Hc ] ].

(** X2: a construction returns exactly when [init_rf_clks] is false, the
    constructor of the base class returns, [BOARD] holds a recognized name,
    the driver has the tiles and blocks of the board's row, and both
    configuration calls return. *)
Theorem construction_returns_iff env bitfile_name init_rf_clks kw :
  (construct env bitfile_name init_rf_clks kw).1 = Returned tt ↔
  init_rf_clks = false ∧
  super_init_raises env (bitfile_path env bitfile_name) kw = None ∧
  ∃ b row d,
    environ env !! "BOARD" = Some b ∧ mapping_table !! b = Some row ∧
    rfdc env = Some d ∧ supplies d row ∧
    configure_adcs_raises env (fs_of b) = None ∧ configure_dacs_raises env = None.
Proof.
  by_stages env bitfile_name init_rf_clks kw;
    try by_configure env b init_rf_clks; simpl;
    (split;
     [ first [ discriminate | intros _; repeat split; eauto 10 ]
     | intros (? & ? & b' & row' & d' & ? & ? & ? & [? ?] & ? & ?);
       simplify_eq; first [ reflexivity | tauto | congruence ] ]).
Qed.

(** X3: a construction raises [NameError] for [clocks] exactly when
    [init_rf_clks] is true, the constructor of the base class returns,
    [BOARD] holds a recognized name and the driver has the tiles and blocks
    of the board's row: every construction that gets as far as the clock
    start-up with [init_rf_clks] true stops there. *)
Theorem NameError_iff env bitfile_name init_rf_clks kw :
  (construct env bitfile_name init_rf_clks kw).1 = Raised (NameError "clocks") ↔
  init_rf_clks = true ∧
  super_init_raises env (bitfile_path env bitfile_name) kw = None ∧
  ∃ b row d,
    environ env !! "BOARD" = Some b ∧ mapping_table !! b = Some row ∧
    rfdc env = Some d ∧ supplies d row.
Proof.
  by_stages env bitfile_name init_rf_clks kw;
    try by_configure env b init_rf_clks; simpl;
    (split;
     [ first [ discriminate | intros _; repeat split; eauto 10 ]
     | intros (? & ? & b' & row' & d' & ? & ? & ? & [? ?]);
       simplify_eq; first [ reflexivity | tauto | congruence ] ]).
Qed.

(** X4: the exceptions a construction can end in are [KeyError] for [BOARD],
    [RuntimeError] for an unknown board, [NameError] for [clocks],
    [IndexError] from a subscript the driver does not have,
    [AttributeError] for [rfdc], and what the vendor stack raises.  Reading
    [self.dac_tile] and [self.adc_tile] back never fails. *)
Theorem exceptions_of_construction env bitfile_name init_rf_clks kw (e : exn) :
  (construct env bitfile_name init_rf_clks kw).1 = Raised e →
  e = KeyError "BOARD" ∨ e = RuntimeError "Unknown error occurred." ∨
  e = NameError "clocks" ∨ e = IndexError ∨ e = AttributeError "rfdc" ∨
  ∃ what, e = Foreign what.
Proof.
  by_stages env bitfile_name init_rf_clks kw;
    try by_configure env b init_rf_clks; simpl;
    intros [= <-]; eauto 10.
Qed.

Lemma exceptions_of_construction_witness :
  (construct (on_board "ZCU216") None true []).1 = Raised (NameError "clocks") ∧
  (NameError "clocks" = KeyError "BOARD" ∨
   NameError "clocks" = RuntimeError "Unknown error occurred." ∨
   NameError "clocks" = NameError "clocks" ∨ NameError "clocks" = IndexError ∨
   NameError "clocks" = AttributeError "rfdc" ∨
   ∃ what, NameError "clocks" = Foreign what).
Proof.
  split; [reflexivity|].
  apply (exceptions_of_construction (on_board "ZCU216") None true []).
  reflexivity.
Defined.

(** X5: however a construction ends, a block that is bound is a block of the
    tile that is bound beside it, [dac_tile] is a tile of the DAC and
    [adc_tile] a tile of the ADC. *)
Theorem bound_block_belongs_to_bound_tile env bitfile_name init_rf_clks kw :
  let s := self (construct env bitfile_name init_rf_clks kw).2 in
  (∀ blk, dac_block s = Some blk → dac_tile s = Some (block_tile blk)) ∧
  (∀ blk, adc_block s = Some blk → adc_tile s = Some (block_tile blk)) ∧
  (∀ t, dac_tile s = Some t → tile_kind t = DAC) ∧
  (∀ t, adc_tile s = Some t → tile_kind t = ADC).
Proof.
  by_stages env bitfile_name init_rf_clks kw; simpl;
    rewrite ?configure_self; simpl;
    rewrite_attributes; simpl;
    repeat split; intros x Hx;
    repeat match goal with
           | H : context [_ <$> ?o] |- _ => destruct o; simpl in H
           end;
    simplify_eq; reflexivity.
Qed.

(** X6: however a construction ends, a tile or block that is bound is one
    the driver has: the subscripts of the bound objects are within the
    driver's lists. *)
Theorem bound_attributes_exist_in_driver env bitfile_name init_rf_clks kw :
  let s := self (construct env bitfile_name init_rf_clks kw).2 in
  (∀ t, dac_tile s = Some t ∨ adc_tile s = Some t →
        ∃ d, rfdc env = Some d ∧ is_Some (tiles d (tile_kind t) !! tile_index t)) ∧
  (∀ blk, dac_block s = Some blk ∨ adc_block s = Some blk →
          ∃ d, rfdc env = Some d ∧
               has_block d (tile_kind (block_tile blk)) (tile_index (block_tile blk))
                         (block_index blk)).
Proof.
  by_stages env bitfile_name init_rf_clks kw; simpl;
    rewrite ?configure_self; simpl;
    rewrite_attributes; simpl;
    (split; intros x [Hx | Hx];
     repeat match goal with
            | H : supplies _ _ |- _ => destruct H
            end;
     try discriminate;
     try (eexists; split; [eassumption|]);
     unfold has_block in *; simpl in *;
     repeat match goal with
            | H : context [_ <$> ?o] |- _ => destruct o eqn:?; simpl in H
            | H : match ?o with _ => _ end |- _ => destruct o eqn:?
            end;
     simplify_eq; simpl;
     first [ done | by eexists | lia
           | by repeat match goal with H : _ !! _ = _ |- _ => rewrite H end ]).
Qed.

(** X7: when the constructor of the base class raises, its exception is the
    outcome of the construction: [BOARD] is not read, no attribute is bound
    and no other call is made. *)
Theorem super_init_failure_propagates env bitfile_name init_rf_clks kw (what : string) :
  super_init_raises env (bitfile_path env bitfile_name) kw = Some what →
  construct env bitfile_name init_rf_clks kw =
    (Raised (Foreign what),
     {| calls := [SuperInit (bitfile_path env bitfile_name) kw]; self := fresh |}).
Proof.
  intros Hs. rewrite construct_stages, Hs. reflexivity.
Qed.

Lemma super_init_failure_propagates_witness :
  let env :=
    {| module_file := "overlay.py";
       environ := ∅;
       super_init_raises := λ _ _, Some "bitstream not found";
       rfdc := None;
       set_custom_lmclks_raises := None;
       configure_adcs_raises := λ _, None;
       configure_dacs_raises := None |} in
  construct env (Some "missing.bit") true [] =
    (Raised (Foreign "bitstream not found"),
     {| calls := [SuperInit "missing.bit" []]; self := fresh |}).
Proof.
  intros env.
  apply (super_init_failure_propagates env (Some "missing.bit") true []).
  reflexivity.
Defined.

(** X8: no construction starts the LMX clocks, whatever [init_rf_clks] and
    the environment: [set_custom_lmclks] is never called. *)
Theorem clocks_never_started env bitfile_name init_rf_clks kw :
  Forall (λ c, c ≠ SetCustomLmclks)
         (calls (construct env bitfile_name init_rf_clks kw).2).
Proof.
  destruct (construct_calls env bitfile_name init_rf_clks kw)
    as (rest & -> & [-> | (_ & b & _ & _ & [-> | ->])]);
    repeat constructor; discriminate.
Qed.

(** X9: the constructor of the base class is called once, as the first
    call, and a construction makes three calls at most. *)
Theorem super_init_called_once env bitfile_name init_rf_clks kw :
  ∃ rest,
    calls (construct env bitfile_name init_rf_clks kw).2 =
      SuperInit (bitfile_path env bitfile_name) kw :: rest ∧
    (∀ name kw', SuperInit name kw' ∉ rest) ∧
    (List.length rest ≤ 2)%nat.
Proof.
  destruct (construct_calls env bitfile_name init_rf_clks kw)
    as (rest & -> & Hrest).
  exists rest. split; [reflexivity|].
  destruct Hrest as [-> | (_ & b & _ & _ & [-> | ->])]; simpl;
    (split; [|lia]); intros name kw';
    rewrite ?elem_of_cons, elem_of_nil; intuition discriminate.
Qed.

(** X10: when the driver lacks a tile or a block of the board's row, the
    construction raises [IndexError] before the clock start-up and the
    configuration calls.  If it is the DAC's tile or block that is missing,
    nothing of the ADC is bound; if it is the ADC's, the DAC's tile and
    block stay bound on the object. *)
Theorem missing_block_raises_IndexError env bitfile_name init_rf_clks kw
    (b : string) (row : entry) (d : RFdc) :
  super_init_raises env (bitfile_path env bitfile_name) kw = None →
  environ env !! "BOARD" = Some b →
  mapping_table !! b = Some row →
  rfdc env = Some d →
  ¬ supplies d row →
  let r := construct env bitfile_name init_rf_clks kw in
  r.1 = Raised IndexError ∧
  calls r.2 = [SuperInit (bitfile_path env bitfile_name) kw] ∧
  adc_block (self r.2) = None ∧
  (¬ has_block d DAC (entry_dac_tile row) (entry_dac_block row) →
   dac_block (self r.2) = None ∧ adc_tile (self r.2) = None) ∧
  (has_block d DAC (entry_dac_tile row) (entry_dac_block row) →
   dac_tile (self r.2) = Some (Tile DAC (entry_dac_tile row)) ∧
   dac_block (self r.2) =
     Some (Block (Tile DAC (entry_dac_tile row)) (entry_dac_block row))).
Proof.
  intros Hs Hb Hrow Hd Hnot r. unfold r.
  by_stages env bitfile_name init_rf_clks kw; simplify_eq; simpl;
    rewrite_attributes;
    first [ by repeat split | tauto ].
Qed.

Lemma missing_block_raises_IndexError_witness :
  let env := quiet "overlay.py" {[ "BOARD" := "ZCU111" ]}
               {| dac_tiles := [4; 2]; adc_tiles := [4; 4] |} in
  let r := construct env (Some "nrssb.bit") false [] in
  r.1 = Raised IndexError ∧
  calls r.2 = [SuperInit "nrssb.bit" []] ∧
  adc_block (self r.2) = None ∧
  dac_block (self r.2) = None ∧ adc_tile (self r.2) = None.
Proof.
  intros env r.
  destruct (missing_block_raises_IndexError env (Some "nrssb.bit") false []
              "ZCU111" (Entry 1 2 0 0 3840.00%float)
              {| dac_tiles := [4; 2]; adc_tiles := [4; 4] |})
    as (H1 & H2 & H3 & H4 & _);
    [reflexivity | reflexivity | reflexivity | reflexivity
    | intros [Hdac _]; compute in Hdac; lia |].
  repeat split; try assumption; apply H4; compute; lia.
Defined.

(** X11: when the loaded overlay has no [rfdc], the construction on a
    recognized board raises [AttributeError] with nothing bound, right after
    the constructor of the base class. *)
Theorem missing_rfdc_raises_AttributeError env bitfile_name init_rf_clks kw (b : string) :
  super_init_raises env (bitfile_path env bitfile_name) kw = None →
  environ env !! "BOARD" = Some b →
  b ∈ recognized_boards →
  rfdc env = None →
  construct env bitfile_name init_rf_clks kw =
    (Raised (AttributeError "rfdc"),
     {| calls := [SuperInit (bitfile_path env bitfile_name) kw]; self := fresh |}).
Proof.
  intros Hs Hb [row Hrow]%mapping_table_recognized Hd.
  by_stages env bitfile_name init_rf_clks kw; simplify_eq; reflexivity.
Qed.

Lemma missing_rfdc_raises_AttributeError_witness :
  let env :=
    {| module_file := "overlay.py";
       environ := {[ "BOARD" := "RFSoC4x2" ]};
       super_init_raises := λ _ _, None;
       rfdc := None;
       set_custom_lmclks_raises := None;
       configure_adcs_raises := λ _, None;
       configure_dacs_raises := None |} in
  construct env (Some "plain.bit") true [] =
    (Raised (AttributeError "rfdc"),
     {| calls := [SuperInit "plain.bit" []]; self := fresh |}).
Proof.
  intros env.
  apply (missing_rfdc_raises_AttributeError env (Some "plain.bit") true [] "RFSoC4x2");
    [reflexivity | reflexivity | | reflexivity].
  apply mapping_table_recognized. by eexists.
Defined.

(** X12: [configure_dacs] is called only in a construction with
    [init_rf_clks] false in which [configure_adcs] was called just before
    and returned; the calls made are then the constructor of the base
    class, [configure_adcs] and [configure_dacs], in this order. *)
Theorem configure_dacs_only_after_configure_adcs env bitfile_name init_rf_clks kw :
  ConfigureDacs ∈ calls (construct env bitfile_name init_rf_clks kw).2 →
  init_rf_clks = false ∧
  ∃ b, environ env !! "BOARD" = Some b ∧
       configure_adcs_raises env (fs_of b) = None ∧
       calls (construct env bitfile_name init_rf_clks kw).2 =
         [SuperInit (bitfile_path env bitfile_name) kw;
          ConfigureAdcs (fs_of b); ConfigureDacs].
Proof.
  by_outcome env bitfile_name init_rf_clks kw; simpl;
    rewrite !elem_of_cons, elem_of_nil; intros Hin;
    first [ intuition discriminate | split; [reflexivity|]; eauto ].
Qed.

Lemma configure_dacs_only_after_configure_adcs_witness :
  ConfigureDacs ∈ calls (construct (on_board "ZCU208") None false []).2 ∧
  ∃ b, environ (on_board "ZCU208") !! "BOARD" = Some b ∧
       calls (construct (on_board "ZCU208") None false []).2 =
         [SuperInit (bitfile_path (on_board "ZCU208") None) [];
          ConfigureAdcs (fs_of b); ConfigureDacs].
Proof.
  assert (Hin : ConfigureDacs ∈ calls (construct (on_board "ZCU208") None false []).2).
  { apply list_elem_of_In. vm_compute. tauto. }
  split; [exact Hin|].
  destruct (configure_dacs_only_after_configure_adcs
              (on_board "ZCU208") None false [] Hin) as (_ & b & Hb & _ & Hcalls).
  eauto.
Defined.

(** X13: when [configure_adcs] raises, its exception is the outcome of the
    construction and [configure_dacs] is not called; the four attributes
    are bound by then. *)
Theorem configure_adcs_failure_skips_configure_dacs env bitfile_name kw
    (b : string) (row : entry) (d : RFdc) (what : string) :
  super_init_raises env (bitfile_path env bitfile_name) kw = None →
  environ env !! "BOARD" = Some b →
  mapping_table !! b = Some row →
  rfdc env = Some d →
  supplies d row →
  configure_adcs_raises env (fs_of b) = Some what →
  construct env bitfile_name false kw =
    (Raised (Foreign what),
     {| calls := [SuperInit (bitfile_path env bitfile_name) kw; ConfigureAdcs (fs_of b)];
        self := bound_at row |}).
Proof.
  intros Hs Hb Hrow Hd Hsup Ha.
  rewrite (construct_past_selection _ _ _ _ b row d) by done.
  by rewrite configure_without_clocks, Ha.
Qed.

Lemma configure_adcs_failure_skips_configure_dacs_witness :
  let env :=
    {| module_file := "overlay.py";
       environ := {[ "BOARD" := "RFSoC2x2" ]};
       super_init_raises := λ _ _, None;
       rfdc := Some xrfdc_layout;
       set_custom_lmclks_raises := None;
       configure_adcs_raises := λ _, Some "PLL not locked";
       configure_dacs_raises := None |} in
  construct env (Some "nrssb.bit") false [] =
    (Raised (Foreign "PLL not locked"),
     {| calls := [SuperInit "nrssb.bit" []; ConfigureAdcs 3840.00%float];
        self := bound 1 0 2 0 |}).
Proof.
  intros env.
  apply (configure_adcs_failure_skips_configure_dacs env (Some "nrssb.bit") []
           "RFSoC2x2" (Entry 1 0 2 0 3840.00%float) xrfdc_layout "PLL not locked");
    [reflexivity | reflexivity | reflexivity | reflexivity
    | split; compute; lia | reflexivity].
Defined.

(** X14: when [configure_dacs] raises, its exception is the outcome of the
    construction, after [configure_adcs] has been called and has returned:
    the ADCs stay configured. *)
Theorem configure_dacs_failure_after_configure_adcs env bitfile_name kw
    (b : string) (row : entry) (d : RFdc) (what : string) :
  super_init_raises env (bitfile_path env bitfile_name) kw = None →
  environ env !! "BOARD" = Some b →
  mapping_table !! b = Some row →
  rfdc env = Some d →
  supplies d row →
  configure_adcs_raises env (fs_of b) = None →
  configure_dacs_raises env = Some what →
  construct env bitfile_name false kw =
    (Raised (Foreign what),
     {| calls := [SuperInit (bitfile_path env bitfile_name) kw;
                  ConfigureAdcs (fs_of b); ConfigureDacs];
        self := bound_at row |}).
Proof.
  intros Hs Hb Hrow Hd Hsup Ha Hc.
  rewrite (construct_past_selection _ _ _ _ b row d) by done.
  by rewrite configure_without_clocks, Ha, Hc.
Qed.

Lemma configure_dacs_failure_after_configure_adcs_witness :
  let env :=
    {| module_file := "overlay.py";
       environ := {[ "BOARD" := "ZCU216" ]};
       super_init_raises := λ _ _, None;
       rfdc := Some xrfdc_layout;
       set_custom_lmclks_raises := None;
       configure_adcs_raises := λ _, None;
       configure_dacs_raises := Some "tile not enabled" |} in
  construct env (Some "nrssb.bit") false [] =
    (Raised (Foreign "tile not enabled"),
     {| calls := [SuperInit "nrssb.bit" []; ConfigureAdcs 1920.00%float; ConfigureDacs];
        self := bound 2 0 1 0 |}).
Proof.
  intros env.
  apply (configure_dacs_failure_after_configure_adcs env (Some "nrssb.bit") []
           "ZCU216" (Entry 2 0 1 0 1920.00%float) xrfdc_layout "tile not enabled");
    [reflexivity | reflexivity | reflexivity | reflexivity
    | split; compute; lia | reflexivity | reflexivity].
Defined.

(** X15: a driver with three tiles of each kind, each of three blocks or
    more, is enough for every recognized board: the construction binds all
    four attributes and raises no [IndexError]. *)
Theorem three_tiles_of_three_blocks_suffice env bitfile_name init_rf_clks kw
    (b : string) (d : RFdc) :
  super_init_raises env (bitfile_path env bitfile_name) kw = None →
  environ env !! "BOARD" = Some b →
  b ∈ recognized_boards →
  rfdc env = Some d →
  (∀ (k : converter) (i : nat),
     (i ≤ 2)%nat → ∃ n, tiles d k !! i = Some n ∧ (2 < n)%nat) →
  let r := construct env bitfile_name init_rf_clks kw in
  r.1 ≠ Raised IndexError ∧
  is_Some (dac_tile (self r.2)) ∧ is_Some (dac_block (self r.2)) ∧
  is_Some (adc_tile (self r.2)) ∧ is_Some (adc_block (self r.2)).
Proof.
  intros Hs Hb Hrec Hd Hroom r.
  assert (Hhas : ∀ (k : converter) (i j : nat),
            (i ≤ 2)%nat → (j ≤ 2)%nat → has_block d k i j).
  { intros k i j Hi Hj. unfold has_block.
    destruct (Hroom k i Hi) as (n & -> & Hn). lia. }
  assert (∃ row, mapping_table !! b = Some row ∧ supplies d row)
    as (row & Hrow & Hsup).
  { destruct (mapping_table_cases b)
      as [[-> E]|[[-> E]|[[-> E]|[[-> E]|[[-> E]|[Hnot _]]]]]];
      [..|done];
      (eexists; split; [exact E|]; split; apply Hhas; simpl; lia). }
  unfold r. rewrite (construct_past_selection _ _ _ _ b row d) by done.
  split.
  - by_configure env b init_rf_clks; discriminate.
  - rewrite configure_self. simpl. repeat split; by eexists.
Qed.

Lemma three_tiles_of_three_blocks_suffice_witness :
  let env := quiet "overlay.py" {[ "BOARD" := "ZCU111" ]}
               {| dac_tiles := [3; 3; 3]; adc_tiles := [3; 4; 5] |} in
  let r := construct env None false [] in
  r.1 ≠ Raised IndexError ∧
  is_Some (dac_tile (self r.2)) ∧ is_Some (dac_block (self r.2)) ∧
  is_Some (adc_tile (self r.2)) ∧ is_Some (adc_block (self r.2)).
Proof.
  intros env.
  apply (three_tiles_of_three_blocks_suffice env None false [] "ZCU111"
           {| dac_tiles := [3; 3; 3]; adc_tiles := [3; 4; 5] |});
    [reflexivity | reflexivity | | reflexivity |].
  - apply mapping_table_recognized. by eexists.
  - intros [|] [|[|[|i]]] Hi; simpl; try lia; eexists; (split; [reflexivity|lia]).
Defined.

(** *** The default bitstream *)

Lemma rstrip_sep_empty (p : string) :
  posixpath.rstrip_sep p = EmptyString → posixpath.all_sep p = true.
Proof.
  induction p as [|c p IH]; [reflexivity|].
  simpl. destruct (posixpath.rstrip_sep p); [|discriminate].
  destruct (posixpath.is_sep c); [|discriminate].
  intros _. by rewrite IH.
Qed.

(** The directory of an absolute path is absolute. *)
Lemma dirname_absolute (p : string) :
  posixpath.startswith_sep p = true →
  posixpath.startswith_sep (posixpath.dirname p) = true.
Proof.
  destruct p as [|c p]; [discriminate|].
  simpl. intros Hc. unfold posixpath.dirname.
  cbn [posixpath.upto_last_sep]. rewrite Hc.
  cbn [posixpath.all_sep]. rewrite Hc.
  destruct (posixpath.all_sep (posixpath.upto_last_sep p)) eqn:Hall;
    cbn [andb negb]; [exact Hc|].
  cbn [posixpath.rstrip_sep].
  destruct (posixpath.rstrip_sep (posixpath.upto_last_sep p)) eqn:Hr;
    [|exact Hc].
  apply rstrip_sep_empty in Hr. congruence.
Qed.

(** The directory of a name with no separator is empty. *)
Lemma dirname_basename (name : string) :
  is_basename name = true → posixpath.dirname name = EmptyString.
Proof.
  intros Hn. unfold posixpath.dirname.
  by rewrite (upto_last_sep_basename _ Hn).
Qed.

(** X16: when the module's file name has no directory part, the default
    bitstream handed to the constructor of the base class is the relative
    path [rfsoc_nrssb/bitstream/rfsoc_nrssb.bit], which the process
    resolves against its working directory. *)
Theorem default_bitfile_of_bare_module env init_rf_clks kw :
  is_basename (module_file env) = true →
  calls (construct env None init_rf_clks kw).2 !! 0 =
    Some (SuperInit "rfsoc_nrssb/bitstream/rfsoc_nrssb.bit" kw).
Proof.
  intros Hn.
  destruct (construct_calls env None init_rf_clks kw) as (rest & -> & _).
  assert (bitfile_path env None = default_bitfile) as ->.
  { unfold bitfile_path. by rewrite (dirname_basename _ Hn), join_default. }
  reflexivity.
Qed.

Lemma default_bitfile_of_bare_module_witness :
  calls (construct (quiet "overlay.pyc" {[ "BOARD" := "ZCU208" ]} xrfdc_layout)
           None true [("download", PyBool false)]).2 !! 0 =
    Some (SuperInit "rfsoc_nrssb/bitstream/rfsoc_nrssb.bit" [("download", PyBool false)]).
Proof.
  apply (default_bitfile_of_bare_module
           (quiet "overlay.pyc" {[ "BOARD" := "ZCU208" ]} xrfdc_layout)
           true [("download", PyBool false)]).
  reflexivity.
Defined.

(** X17: when the module's file name is an absolute path, so is the default
    bitstream handed to the constructor of the base class. *)
Theorem default_bitfile_absolute env init_rf_clks kw :
  posixpath.startswith_sep (module_file env) = true →
  ∃ path,
    calls (construct env None init_rf_clks kw).2 !! 0 = Some (SuperInit path kw) ∧
    posixpath.startswith_sep path = true.
Proof.
  intros Habs.
  destruct (construct_calls env None init_rf_clks kw) as (rest & -> & _).
  eexists. split; [reflexivity|].
  unfold bitfile_path. rewrite join_default.
  pose proof (dirname_absolute _ Habs) as Hd.
  destruct (posixpath.dirname (module_file env)) as [|c d]; [discriminate|].
  destruct (posixpath.endswith_sep (String c d)); rewrite append_cons; exact Hd.
Qed.

Lemma default_bitfile_absolute_witness :
  ∃ path,
    calls (construct (on_board "RFSoC4x2") None true []).2 !! 0 =
      Some (SuperInit path []) ∧
    posixpath.startswith_sep path = true.
Proof.
  apply (default_bitfile_absolute (on_board "RFSoC4x2") true []).
  reflexivity.
Defined.
